(** * go-inspector: the GoReSym scanner plugin

    A shallow embedding of [src/go_inspector/plugin.py].  The plugin wraps
    the prebuilt GoReSym extractor: it gates on the file type, runs the
    extractor in a fresh temporary directory, decodes its JSON output and
    returns the sorted file paths and the build info.

    Conventions of the embedding:
    - a Python [str] is a [string] holding its UTF-8 bytes; on UTF-8 the
      byte-wise lexicographic order is the code-point order Python uses;
    - the values [json.load] produces are the inductive [json];
    - the filesystem, the content-type library, the extractor and the JSON
      decoder are the fields of a [World];
    - the effects of a call (temporary directories, extractor runs,
      exceptions) are threaded by the monad [M]. *)

From Stdlib Require Import List String Ascii ZArith Bool Lia Floats.
From Stdlib Require Import Sorting.Sorted Sorting.Permutation.
Import ListNotations.
Open Scope string_scope.

(** ** Decoded JSON values *)

Set Warnings "-register-all".

(** What [json.load] returns: [None], [bool], [int], [float] (a binary64,
    which may be infinite or NaN), [str], [list] and [dict].  A dict is the
    list of its items in insertion order, with distinct keys. *)
Inductive json : Type :=
| JNull
| JBool (b : bool)
| JInt (z : Z)
| JFloat (f : float)
| JStr (s : string)
| JList (l : list json)
| JDict (d : list (string * json)).

(** Python truth value of a decoded value, as used by [or]. *)
Definition truthy (v : json) : bool :=
  match v with
  | JNull => false
  | JBool b => b
  | JInt z => negb (z =? 0)%Z
  | JFloat f => negb (PrimFloat.eqb f 0%float)
  | JStr s => negb (s =? "")
  | JList l => match l with [] => false | _ => true end
  | JDict d => match d with [] => false | _ => true end
  end.

(** [a or b] *)
Definition py_or (a b : json) : json := if truthy a then a else b.

Fixpoint dict_lookup (k : string) (d : list (string * json)) : option json :=
  match d with
  | [] => None
  | (k', v) :: d' => if k' =? k then Some v else dict_lookup k d'
  end.

(** How a float compares with an integer: by exact value, [None] for NaN. *)
Definition float_compare_int (f : float) (z : Z) : option comparison :=
  match Prim2SF f with
  | S754_nan => None
  | S754_zero _ => Some (0 ?= z)%Z
  | S754_infinity negative => Some (if negative then Lt else Gt)
  | S754_finite negative m e =>
      let n := if negative then Z.neg m else Z.pos m in
      if (0 <=? e)%Z then Some (n * 2 ^ e ?= z)%Z
      else Some (n ?= z * 2 ^ (- e))%Z
  end.

Definition is_cmp (c : comparison) (o : option comparison) : bool :=
  match o, c with
  | Some Eq, Eq | Some Lt, Lt | Some Gt, Gt => true
  | _, _ => false
  end.

(** [==] on decoded values; [bool] is a subclass of [int]. *)
Fixpoint py_eq (a b : json) {struct a} : bool :=
  match a, b with
  | JNull, JNull => true
  | JBool x, JBool y => Bool.eqb x y
  | JBool x, JInt y => (Z.b2z x =? y)%Z
  | JInt x, JBool y => (x =? Z.b2z y)%Z
  | JInt x, JInt y => (x =? y)%Z
  | JFloat x, JFloat y => PrimFloat.eqb x y
  | JFloat x, JInt y => is_cmp Eq (float_compare_int x y)
  | JInt x, JFloat y => is_cmp Eq (float_compare_int y x)
  | JFloat x, JBool y => is_cmp Eq (float_compare_int x (Z.b2z y))
  | JBool x, JFloat y => is_cmp Eq (float_compare_int y (Z.b2z x))
  | JStr x, JStr y => (x =? y)
  | JList l, JList m =>
      (fix go (l m : list json) {struct l} : bool :=
         match l, m with
         | [], [] => true
         | x :: l', y :: m' => py_eq x y && go l' m'
         | _, _ => false
         end) l m
  | JDict d, JDict e =>
      (List.length d =? List.length e)%nat &&
      (fix go (d : list (string * json)) {struct d} : bool :=
         match d with
         | [] => true
         | (k, v) :: d' =>
             match dict_lookup k e with
             | Some w => py_eq v w && go d'
             | None => false
             end
         end) d
  | _, _ => false
  end.

(** [a < b]; [None] is the [TypeError] of unorderable operands. *)
Fixpoint py_lt (a b : json) {struct a} : option bool :=
  match a, b with
  | JBool x, JBool y => Some (Z.b2z x <? Z.b2z y)%Z
  | JBool x, JInt y => Some (Z.b2z x <? y)%Z
  | JInt x, JBool y => Some (x <? Z.b2z y)%Z
  | JInt x, JInt y => Some (x <? y)%Z
  | JFloat x, JFloat y => Some (PrimFloat.ltb x y)
  | JFloat x, JInt y => Some (is_cmp Lt (float_compare_int x y))
  | JInt x, JFloat y => Some (is_cmp Gt (float_compare_int y x))
  | JFloat x, JBool y => Some (is_cmp Lt (float_compare_int x (Z.b2z y)))
  | JBool x, JFloat y => Some (is_cmp Gt (float_compare_int y (Z.b2z x)))
  | JStr x, JStr y => Some (x <? y)
  | JList l, JList m =>
      (fix go (l m : list json) {struct l} : option bool :=
         match l, m with
         | [], [] => Some false
         | [], _ :: _ => Some true
         | _ :: _, [] => Some false
         | x :: l', y :: m' => if py_eq x y then go l' m' else py_lt x y
         end) l m
  | _, _ => None
  end.

(** ** Exceptions and the effect monad *)

Inductive exn : Type :=
| Exception (msg : string)
| AttributeError
| TypeError
| JSONDecodeError
| UnicodeDecodeError
| OSError (msg : string).

Inductive outcome (A : Type) : Type :=
| Return (a : A)
| Raise (e : exn).
Arguments Return {A} a.
Arguments Raise {A} e.

(** What the process keeps track of: the temporary directories that exist,
    the counter naming the next one, and the extractor runs made so far
    (command location, arguments, TMPDIR). *)
Record State : Type := mkState {
  temp_dirs : list string;
  next_tmp : nat;
  calls : list (string * list string * string)
}.

Definition M (A : Type) : Type := State -> outcome A * State.

Definition ret {A} (a : A) : M A := fun s => (Return a, s).
Definition raise {A} (e : exn) : M A := fun s => (Raise e, s).
Definition bind {A B} (m : M A) (k : A -> M B) : M B :=
  fun s => match m s with
           | (Return a, s') => k a s'
           | (Raise e, s') => (Raise e, s')
           end.

(** [try: body finally: fin] *)
Definition try_finally {A} (body : M A) (fin : M unit) : M A :=
  fun s => match body s with
           | (r, s') => match fin s' with
                        | (Return _, s'') => (r, s'')
                        | (Raise e, s'') => (Raise e, s'')
                        end
           end.

Notation "x <- m ;; k" := (bind m (fun x => k))
  (at level 61, m at next level, right associativity).

(** [list.sort()]: a stable comparison sort using only [<], which lets the
    first failed comparison escape. *)
Fixpoint insert (x : json) (l : list json) : outcome (list json) :=
  match l with
  | [] => Return [x]
  | y :: l' =>
      match py_lt y x with
      | None => Raise TypeError
      | Some true =>
          match insert x l' with
          | Return r => Return (y :: r)
          | Raise e => Raise e
          end
      | Some false => Return (x :: l)
      end
  end.

Fixpoint list_sort (l : list json) : outcome (list json) :=
  match l with
  | [] => Return []
  | x :: l' =>
      match list_sort l' with
      | Return s => insert x s
      | Raise e => Raise e
      end
  end.

(** [d.get(key)] on a dict: a missing key gives [None]. *)
Definition dict_get (key : string) (d : list (string * json)) : json :=
  match dict_lookup key d with
  | Some v => v
  | None => JNull
  end.

(** [symbols.get(key)]: only a dict has [get]. *)
Definition py_get (symbols : json) (key : string) : outcome json :=
  match symbols with
  | JDict d => Return (dict_get key d)
  | _ => Raise AttributeError
  end.

(** [files.sort()]: only a list has [sort]. *)
Definition py_sort (files : json) : outcome (list json) :=
  match files with
  | JList l => list_sort l
  | _ => Raise AttributeError
  end.

Definition lift {A} (o : outcome A) : M A := fun s => (o, s).

(** ** The world outside the plugin *)

(** ** Reading a text file *)

(** [open(path).read()] decodes the bytes of the file as UTF-8, the
    encoding of the Linux hosts the bundled GoReSym_lin runs on, and
    translates line endings.  [utf8_valid] is well-formed UTF-8: no
    overlong form, no surrogate, nothing above U+10FFFF, no truncated
    sequence. *)
Definition byte_in (lo hi : N) (c : ascii) : bool :=
  let n := N_of_ascii c in ((lo <=? n) && (n <=? hi))%N.

Definition continuation (c : ascii) : bool := byte_in 128 191 c.

Fixpoint utf8_valid (s : string) : bool :=
  match s with
  | EmptyString => true
  | String c0 s1 =>
      let n := N_of_ascii c0 in
      if (n <? 128)%N then utf8_valid s1
      else if ((194 <=? n) && (n <=? 223))%N then
        match s1 with
        | String c1 s2 => continuation c1 && utf8_valid s2
        | _ => false
        end
      else if ((224 <=? n) && (n <=? 239))%N then
        match s1 with
        | String c1 (String c2 s3) =>
            (if (n =? 224)%N then byte_in 160 191 c1
             else if (n =? 237)%N then byte_in 128 159 c1
             else continuation c1)
            && continuation c2 && utf8_valid s3
        | _ => false
        end
      else if ((240 <=? n) && (n <=? 244))%N then
        match s1 with
        | String c1 (String c2 (String c3 s4)) =>
            (if (n =? 240)%N then byte_in 144 191 c1
             else if (n =? 244)%N then byte_in 128 143 c1
             else continuation c1)
            && continuation c2 && continuation c3 && utf8_valid s4
        | _ => false
        end
      else false
  end.

(** Universal newlines: [\r\n] and a lone [\r] are read as [\n]. *)
Fixpoint universal_newlines (s : string) : string :=
  match s with
  | EmptyString => EmptyString
  | String c s' =>
      if (N_of_ascii c =? 13)%N then
        match s' with
        | String c' s'' =>
            if (N_of_ascii c' =? 10)%N
            then String c' (universal_newlines s'')
            else String "010"%char (universal_newlines s')
        | EmptyString => String "010"%char EmptyString
        end
      else String c (universal_newlines s')
  end.

Definition read_text (bytes : string) : outcome string :=
  if utf8_valid bytes then Return (universal_newlines bytes)
  else Raise UnicodeDecodeError.

(** What [command.execute(..., to_files=True)] hands back: the return code
    and the two files the streams were written to, given by their bytes. *)
Record ExecResult : Type := mkExec {
  rc : Z;
  stdo : string;
  err : string
}.

Record World : Type := mkWorld {
  (** [os.path.exists], [os.path.isfile] *)
  os_path_exists : string -> bool;
  os_path_isfile : string -> bool;
  (** [contenttype.Type(location)]: [is_elf], [is_winexe],
      [filetype_file], [mimetype_file] *)
  is_elf : string -> bool;
  is_winexe : string -> bool;
  filetype_file : string -> string;
  mimetype_file : string -> string;
  (** the GoReSym binary, run on its arguments with [TMPDIR] set *)
  goresym : list string -> string -> outcome ExecResult;
  (** [json.load]; [None] is a decoding error *)
  json_load : string -> option json
}.

(** [str.lower] and [str.startswith]; the prefixes tested are ASCII, where
    lowering a byte at a time is exact. *)
Definition lower_ascii (c : ascii) : ascii :=
  let n := nat_of_ascii c in
  if (65 <=? n)%nat && (n <=? 90)%nat then ascii_of_nat (n + 32) else c.

Fixpoint lower (s : string) : string :=
  match s with
  | EmptyString => EmptyString
  | String c s' => String (lower_ascii c) (lower s')
  end.

Definition startswith (s p : string) : bool := String.prefix p s.

(** [fileutils.get_temp_dir] names a directory after the counter. *)
Definition temp_dir_name (n : nat) : string :=
  "/tmp/scancode-tk-" ++ String.concat "" (repeat "x" n).

Definition get_goresym_location : string := "go_inspector/bin/GoReSym_lin".

Section Plugin.

Variable w : World.

Definition is_macho (location : string) : bool :=
  startswith (lower (filetype_file w location)) "mach-o"
  || startswith (lower (mimetype_file w location)) "application/x-mach-binary".

Definition is_executable_binary (location : string) : bool :=
  if negb (os_path_exists w location) then false
  else if negb (os_path_isfile w location) then false
  else if negb (is_elf w location || is_winexe w location || is_macho location)
       then false
  else true.

Definition get_temp_dir : M string :=
  fun s =>
    let d := temp_dir_name (next_tmp s) in
    (Return d,
     {| temp_dirs := d :: temp_dirs s;
        next_tmp := S (next_tmp s);
        calls := calls s |}).

(** [fileutils.delete] removes the directory and does not raise. *)
Definition delete (d : string) : M unit :=
  fun s =>
    (Return tt,
     {| temp_dirs := List.remove string_dec d (temp_dirs s);
        next_tmp := next_tmp s;
        calls := calls s |}).

(** [command.execute(cmd_loc, args, env={"TMPDIR": tmpdir}, to_files=True)]
    makes a temporary directory of its own for the two output files before
    it starts the command, and leaves it in place. *)
Definition execute (cmd_loc : string) (args : list string) (tmpdir : string)
  : M ExecResult :=
  fun s =>
    let cmd_dir := temp_dir_name (next_tmp s) in
    (goresym w args tmpdir,
     {| temp_dirs := cmd_dir :: temp_dirs s;
        next_tmp := S (next_tmp s);
        calls := calls s ++ [(cmd_loc, args, tmpdir)] |}).

(** [json.load(syms)] on the open text file: read, then decode. *)
Definition load (bytes : string) : M json :=
  text <- lift (read_text bytes) ;;
  match json_load w text with
  | Some v => ret v
  | None => raise JSONDecodeError
  end.

(** The value under ["go_symbols"] in the returned mapping. *)
Record GoSymbols : Type := mkGoSymbols {
  build_info : json;
  file_paths : list json
}.

(** The body of the [with open(stdo) as syms:] block. *)
Definition assemble (symbols : json) : outcome GoSymbols :=
  match py_get symbols "Files" with
  | Raise e => Raise e
  | Return f =>
      let files := py_or f (JList []) in
      match py_sort files with
      | Raise e => Raise e
      | Return files =>
          match py_get symbols "BuildInfo" with
          | Raise e => Raise e
          | Return b =>
              let build_info := py_or b (JDict []) in
              Return {| build_info := build_info; file_paths := files |}
          end
      end
  end.

(** [collect_and_parse_symbols(location, check_type)]; the Python [None]
    of the early [return] is [None] here. *)
Definition collect_and_parse_symbols (location : string) (check_type : bool)
  : M (option GoSymbols) :=
  if check_type && negb (is_executable_binary location) then ret None
  else
    let goresym_args := ["-p"; location] in
    goresym_temp_dir <- get_temp_dir ;;
    try_finally
      (r <- execute get_goresym_location goresym_args goresym_temp_dir ;;
       if negb (rc r =? 0)%Z then
         msg <- lift (read_text (err r)) ;;
         raise (Exception msg)
       else
         symbols <- load (stdo r) ;;
         g <- lift (assemble symbols) ;;
         ret (Some g))
      (delete goresym_temp_dir).

End Plugin.

Arguments build_info g : rename.
Arguments file_paths g : rename.

(** The state a fresh process starts from. *)
Definition initial_state : State :=
  {| temp_dirs := []; next_tmp := 0; calls := [] |}.

(** What the [try] block computes from the extractor's answer when the
    extractor is run on [location] with [TMPDIR] set to [d]. *)
Definition try_block (w : World) (location d : string)
  : outcome (option GoSymbols) :=
  match goresym w ["-p"; location] d with
  | Raise e => Raise e
  | Return r =>
      if negb (rc r =? 0)%Z then
        match read_text (err r) with
        | Return msg => Raise (Exception msg)
        | Raise e => Raise e
        end
      else match read_text (stdo r) with
           | Raise e => Raise e
           | Return text =>
               match json_load w text with
               | None => Raise JSONDecodeError
               | Some symbols =>
                   match assemble symbols with
                   | Return g => Return (Some g)
                   | Raise e => Raise e
                   end
               end
           end
  end.

(** The extractor's answer does not depend on the scratch directory it is
    given: it is a function of the file it is pointed at. *)
Definition extractor_is_function_of_input (w : World) : Prop :=
  forall args d d', goresym w args d = goresym w args d'.

(** ** Concrete worlds used to run the plugin *)

(** A string between double quotes, as in a JSON text. *)
Definition q (t : string) : string :=
  String "034"%char t ++ String "034"%char "".

(** A world with one file, [location], described by the flags given, on
    which the extractor answers [answer] and whose standard output, read
    as text, decodes to [decoded]. *)
Definition single_file_world (location : string) (isfile elf winexe : bool)
           (ftype mime : string) (answer : outcome ExecResult)
           (decoded : option json) : World :=
  {| os_path_exists := fun l => l =? location;
     os_path_isfile := fun l => (l =? location) && isfile;
     is_elf := fun l => (l =? location) && elf;
     is_winexe := fun l => (l =? location) && winexe;
     filetype_file := fun l => if l =? location then ftype else "";
     mimetype_file := fun l => if l =? location then mime else "";
     goresym := fun args _ =>
       match args with
       | [_; l] => if l =? location then answer
                   else Return {| rc := 1; stdo := ""; err := "" |}
       | _ => Return {| rc := 1; stdo := ""; err := "" |}
       end;
     json_load := fun text =>
       match answer with
       | Return r => if text =? universal_newlines (stdo r) then decoded
                     else None
       | Raise _ => None
       end |}.

(** [tests/data/arm_gentoo_elf]: an ELF executable that was not built by
    Go.  The extractor exits with return code 1 and leaves its error
    stream empty; the test suite expects the scan of it to raise. *)
Definition arm_gentoo_elf : string := "tests/data/arm_gentoo_elf".

Definition world_non_go_elf : World :=
  single_file_world arm_gentoo_elf true true false
    "ELF 32-bit LSB executable, ARM" "application/x-executable"
    (Return {| rc := 1; stdo := ""; err := "" |})
    None.

(** [tests/data/app_lin_exe]: a small Go application.  The extractor's
    answer holds the build info and the source files, in no particular
    order. *)
Definition app_lin_exe : string := "tests/data/app_lin_exe".

Definition go_app_build_info : json :=
  JDict [("GoVersion", JStr "go1.20.4");
         ("Path", JStr "app");
         ("Main", JDict [("Path", JStr "app"); ("Version", JStr "(devel)")]);
         ("Deps", JNull);
         ("Settings", JNull)].

Definition go_app_answer : json :=
  JDict [("BuildInfo", go_app_build_info);
         ("Files", JList [JStr "/src/app/main.go"; JStr "/src/app/helper.go";
                          JStr "/go/src/runtime/proc.go"])].

Definition go_app_stdout : string :=
  "{" ++ q "BuildInfo" ++ ": {"
      ++ q "GoVersion" ++ ": " ++ q "go1.20.4" ++ ", "
      ++ q "Path" ++ ": " ++ q "app" ++ ", "
      ++ q "Main" ++ ": {" ++ q "Path" ++ ": " ++ q "app" ++ ", "
                           ++ q "Version" ++ ": " ++ q "(devel)" ++ "}, "
      ++ q "Deps" ++ ": null, "
      ++ q "Settings" ++ ": null}, "
  ++ q "Files" ++ ": [" ++ q "/src/app/main.go" ++ ", "
                        ++ q "/src/app/helper.go" ++ ", "
                        ++ q "/go/src/runtime/proc.go" ++ "]}".

Definition world_go_app : World :=
  single_file_world app_lin_exe true true false
    "ELF 64-bit LSB executable" "application/x-executable"
    (Return {| rc := 0; stdo := go_app_stdout; err := "" |})
    (Some go_app_answer).

(** An executable in which the extractor finds nothing and says so with an
    empty mapping. *)
Definition world_empty_answer : World :=
  single_file_world app_lin_exe true true false
    "ELF 64-bit LSB executable" "application/x-executable"
    (Return {| rc := 0; stdo := "{}"; err := "" |})
    (Some (JDict [])).

(** A text file, and a directory: the extractor, when run on them, exits
    with return code 1 and an empty error stream. *)
Definition readme : string := "README.rst".

Definition world_text_file : World :=
  single_file_world readme true false false
    "ASCII text" "text/plain"
    (Return {| rc := 1; stdo := ""; err := "" |})
    None.

Definition world_directory : World :=
  single_file_world "tests/data" false false false "directory" "inode/directory"
    (Return {| rc := 1; stdo := ""; err := "" |}) None.

(** A host on which the extractor binary cannot be started. *)
Definition world_no_extractor : World :=
  single_file_world app_lin_exe true true false
    "ELF 64-bit LSB executable" "application/x-executable"
    (Raise (OSError "Permission denied")) None.

(** An extractor that fails and writes bytes that are not UTF-8 to its
    error stream. *)
Definition undecodable : string :=
  String (ascii_of_nat 255) (String (ascii_of_nat 254) " failed").


(** An extractor that exits with return code 0 after printing something
    that is not JSON, bytes that are not UTF-8, or a JSON list. *)
Definition world_garbled_output : World :=
  single_file_world app_lin_exe true true false
    "ELF 64-bit LSB executable" "application/x-executable"
    (Return {| rc := 0; stdo := "panic: runtime error"; err := "" |})
    None.

Definition world_binary_output : World :=
  single_file_world app_lin_exe true true false
    "ELF 64-bit LSB executable" "application/x-executable"
    (Return {| rc := 0; stdo := undecodable; err := "" |})
    None.

Definition world_list_output : World :=
  single_file_world app_lin_exe true true false
    "ELF 64-bit LSB executable" "application/x-executable"
    (Return {| rc := 0; stdo := "[]"; err := "" |})
    (Some (JList [])).

(** [tests/data/app_mac_exe]: a Mach-O executable, which the content-type
    library reports as neither ELF nor a Windows executable. *)
Definition app_mac_exe : string := "tests/data/app_mac_exe".

Definition world_macho : World :=
  single_file_world app_mac_exe true false false
    "Mach-O 64-bit x86_64 executable" "application/x-mach-binary"
    (Return {| rc := 0; stdo := "{}"; err := "" |})
    (Some (JDict [])).

(** ** Vocabulary of the statements *)

(** The elements of a decoded value when it is a list. *)
Definition elements (v : json) : list json :=
  match v with
  | JList l => l
  | _ => []
  end.

(** The string a [JStr] holds. *)
Definition str_of (v : json) : string :=
  match v with
  | JStr t => t
  | _ => ""
  end.

(** The result for a file in which nothing was found. *)
Definition empty_result : GoSymbols :=
  {| build_info := JDict []; file_paths := [] |}.

(** [a] does not come after [b] in the order [list.sort] uses. *)
Definition py_le (a b : json) : Prop :=
  py_lt a b = Some true \/ py_lt b a = Some false.

Definition string_le (a b : string) : Prop := (a <=? b) = true.


(** Every temporary directory that exists was named by a counter value
    already used: the next names to be handed out are not among them. *)
Definition temp_dirs_fresh (s : State) : Prop :=
  forall d, In d (temp_dirs s) ->
            exists k, (k < next_tmp s)%nat /\ d = temp_dir_name k.

(** * Properties *)

(** ** How a call unfolds *)

Section Unfolding.

Variable w : World.

(** The gate: with [check_type] set and a file that is not an executable
    binary the call returns [None] and changes nothing. *)
Lemma call_gated location s :
  is_executable_binary w location = false ->
  collect_and_parse_symbols w location true s = (Return None, s).
Proof.
  intros Hexe. unfold collect_and_parse_symbols.
  rewrite Hexe. reflexivity.
Qed.

(** Past the gate: the directory named after the counter is created, the
    extractor is run once, with a directory of its own for its output, and
    the first directory is removed again. *)
Lemma call_past_gate location check_type s :
  check_type && negb (is_executable_binary w location) = false ->
  let d := temp_dir_name (next_tmp s) in
  collect_and_parse_symbols w location check_type s =
    (try_block w location d,
     {| temp_dirs :=
          List.remove string_dec d
            (temp_dir_name (S (next_tmp s)) :: d :: temp_dirs s);
        next_tmp := S (S (next_tmp s));
        calls := calls s ++ [(get_goresym_location, ["-p"; location], d)] |}).
Proof.
  intros Hgate d. unfold collect_and_parse_symbols. rewrite Hgate.
  unfold bind, try_finally, get_temp_dir, execute, delete, try_block.
  cbn [temp_dirs next_tmp calls]. fold d.
  destruct (goresym w ["-p"; location] d) as [r | e]; [ | reflexivity ].
  destruct (negb (rc r =? 0)%Z).
  - unfold lift, raise. destruct (read_text (err r)); reflexivity.
  - unfold load, bind, lift, ret, raise.
    destruct (read_text (stdo r)) as [text | e]; [ | reflexivity ].
    destruct (json_load w text) as [symbols | ]; [ | reflexivity ].
    destruct (assemble symbols); reflexivity.
Qed.

Lemma remove_not_in (d : string) (l : list string) :
  ~ In d (List.remove string_dec d l).
Proof. apply remove_In. Qed.

End Unfolding.

(** ** The gate *)

(** C9. When [location] does not exist or is not a regular file, the call
    with [check_type=True] returns [None]: it does not raise, and the state
    is the one it started from, so the extractor was not run. *)
Theorem missing_or_irregular_returns_none (w : World) (location : string) (s : State) :
  os_path_exists w location = false \/ os_path_isfile w location = false ->
  collect_and_parse_symbols w location true s = (Return None, s)
  /\ calls (snd (collect_and_parse_symbols w location true s)) = calls s.
Proof.
  intros H.
  assert (Hexe : is_executable_binary w location = false).
  { unfold is_executable_binary.
    destruct H as [-> | H]; [ reflexivity | ].
    rewrite H. destruct (os_path_exists w location); reflexivity. }
  rewrite (call_gated w location s Hexe). split; reflexivity.
Qed.

Lemma missing_or_irregular_returns_none_witness :
  (os_path_exists world_directory "tests/data" = false
   \/ os_path_isfile world_directory "tests/data" = false)
  /\ collect_and_parse_symbols world_directory "tests/data" true initial_state
     = (Return None, initial_state)
  /\ (os_path_exists world_directory "nowhere" = false
      \/ os_path_isfile world_directory "nowhere" = false)
  /\ collect_and_parse_symbols world_directory "nowhere" true initial_state
     = (Return None, initial_state).
Proof.
  split; [ right; reflexivity | ].
  split; [ apply (missing_or_irregular_returns_none world_directory);
           right; reflexivity | ].
  split; [ left; reflexivity | ].
  apply (missing_or_irregular_returns_none world_directory); left; reflexivity.
Defined.

(** C10. With [check_type=False] the call makes no check of its own:
    whatever the file is, the extractor is run on it, exactly once, with
    the arguments [-p location], and the call does not return [None]. *)
Theorem unchecked_call_runs_extractor (w : World) (location : string) (s : State) :
  let r := collect_and_parse_symbols w location false s in
  fst r <> Return None
  /\ exists d,
       calls (snd r)
       = (calls s ++ [(get_goresym_location, ["-p"; location], d)])%list.
Proof.
  cbv zeta.
  rewrite (call_past_gate w location false s eq_refl). cbn [fst snd calls].
  split; [ | eexists; reflexivity ].
  unfold try_block.
  destruct (goresym w _ _) as [r | e]; [ | discriminate ].
  destruct (negb (rc r =? 0)%Z).
  - destruct (read_text (err r)); discriminate.
  - destruct (read_text (stdo r)) as [text | ]; [ | discriminate ].
    destruct (json_load w text) as [v | ]; [ | discriminate ].
    destruct (assemble v); discriminate.
Qed.

(** ** The temporary directory *)

(** C8. Whenever a call runs the extractor, the directory it passed as
    [TMPDIR] no longer exists when the call is over, whether the call
    returned or raised. *)
Theorem temp_dir_deleted (w : World) (location : string) (check_type : bool)
        (s : State) (cmd : string) (args : list string) (d : string) :
  calls (snd (collect_and_parse_symbols w location check_type s))
    = (calls s ++ [(cmd, args, d)])%list ->
  ~ In d (temp_dirs (snd (collect_and_parse_symbols w location check_type s))).
Proof.
  destruct (check_type && negb (is_executable_binary w location)) eqn:Hgate.
  - assert (Hs : collect_and_parse_symbols w location check_type s = (Return None, s)).
    { unfold collect_and_parse_symbols. rewrite Hgate. reflexivity. }
    rewrite Hs. cbn [snd]. intros Hc.
    apply (f_equal (@List.length _)) in Hc.
    rewrite length_app in Hc. cbn in Hc. lia.
  - rewrite (call_past_gate w location check_type s Hgate). cbn [snd calls temp_dirs].
    intros Hc. apply app_inv_head in Hc. injection Hc as _ _ <-.
    apply remove_not_in.
Qed.

Lemma temp_dir_deleted_witness :
  calls (snd (collect_and_parse_symbols world_non_go_elf arm_gentoo_elf true
                initial_state))
  = (calls initial_state
     ++ [(get_goresym_location, ["-p"; arm_gentoo_elf], temp_dir_name 0)])%list
  /\ ~ In (temp_dir_name 0)
        (temp_dirs (snd (collect_and_parse_symbols world_non_go_elf
                           arm_gentoo_elf true initial_state))).
Proof.
  split; [ reflexivity | ].
  apply (temp_dir_deleted world_non_go_elf arm_gentoo_elf true initial_state
           get_goresym_location ["-p"; arm_gentoo_elf] (temp_dir_name 0)).
  reflexivity.
Defined.

(** ** Repeated runs *)

(** C6. With an extractor that is a function of the file it is pointed at,
    a second call on the same file, made in the state the first call left
    behind, gives the same outcome as the first; and so do any two calls,
    whatever states they start from. *)
Theorem extraction_is_repeatable (w : World) (location : string)
        (check_type : bool) (s : State) :
  extractor_is_function_of_input w ->
  fst (collect_and_parse_symbols w location check_type
         (snd (collect_and_parse_symbols w location check_type s)))
  = fst (collect_and_parse_symbols w location check_type s)
  /\ forall s1 s2,
       fst (collect_and_parse_symbols w location check_type s1)
       = fst (collect_and_parse_symbols w location check_type s2).
Proof.
  intros Hfun.
  assert (Hany : forall s1 s2,
             fst (collect_and_parse_symbols w location check_type s1)
             = fst (collect_and_parse_symbols w location check_type s2)).
  { intros s1 s2.
    destruct (check_type && negb (is_executable_binary w location)) eqn:Hgate.
    - unfold collect_and_parse_symbols. rewrite Hgate. reflexivity.
    - rewrite !(call_past_gate w location check_type _ Hgate). cbn [fst].
      unfold try_block.
      rewrite (Hfun _ (temp_dir_name (next_tmp s1)) (temp_dir_name (next_tmp s2))).
      reflexivity. }
  split; [ apply Hany | exact Hany ].
Qed.

Lemma extraction_is_repeatable_witness :
  extractor_is_function_of_input world_go_app
  /\ fst (collect_and_parse_symbols world_go_app app_lin_exe true
            (snd (collect_and_parse_symbols world_go_app app_lin_exe true
                    initial_state)))
     = fst (collect_and_parse_symbols world_go_app app_lin_exe true
              initial_state).
Proof.
  split; [ intros args d d'; reflexivity | ].
  apply (extraction_is_repeatable world_go_app app_lin_exe true initial_state).
  intros args d d'; reflexivity.
Defined.

(** ** Sorting *)

(** The byte-wise order on strings is transitive. *)
Lemma string_le_trans (a b c : string) :
  string_le a b -> string_le b c -> string_le a c.
Proof.
  unfold string_le, String.leb. revert b c.
  induction a as [ | x a IH]; intros [ | y b] [ | z c]; cbn;
    try reflexivity; try discriminate.
  unfold Ascii.compare.
  destruct (N.compare_spec (N_of_ascii x) (N_of_ascii y)) as [Hxy | Hxy | Hxy];
    destruct (N.compare_spec (N_of_ascii y) (N_of_ascii z)) as [Hyz | Hyz | Hyz];
    destruct (N.compare_spec (N_of_ascii x) (N_of_ascii z)) as [Hxz | Hxz | Hxz];
    try reflexivity; try discriminate; try lia.
  apply IH.
Qed.

(** On strings [py_le] is the byte-wise order. *)
Lemma py_le_strings (a b : string) : py_le (JStr a) (JStr b) <-> string_le a b.
Proof.
  unfold py_le, string_le. cbn. unfold String.leb, String.ltb.
  rewrite (String.compare_antisym b a).
  destruct (String.compare a b); cbn; split; intros H;
    try reflexivity; try discriminate;
    try (destruct H; discriminate).
  - right; reflexivity.
  - left; reflexivity.
Qed.

Lemma insert_permutation (x : json) (l r : list json) :
  insert x l = Return r -> Permutation r (x :: l).
Proof.
  revert r. induction l as [ | y l IH]; intros r; cbn.
  - intros [= <-]. apply Permutation_refl.
  - destruct (py_lt y x) as [[ | ] | ]; [ | | discriminate ].
    + destruct (insert x l) as [r' | ]; [ | discriminate ].
      intros [= <-]. rewrite (IH r' eq_refl). apply perm_swap.
    + intros [= <-]. apply Permutation_refl.
Qed.

Lemma list_sort_permutation (l r : list json) :
  list_sort l = Return r -> Permutation r l.
Proof.
  revert r. induction l as [ | x l IH]; intros r; cbn.
  - intros [= <-]. apply perm_nil.
  - destruct (list_sort l) as [s | ]; [ | discriminate ].
    intros H. apply insert_permutation in H.
    rewrite H. apply perm_skip. apply IH. reflexivity.
Qed.

Lemma insert_hd (x y : json) (l r : list json) :
  insert x l = Return r -> py_le y x -> HdRel py_le y l -> HdRel py_le y r.
Proof.
  destruct l as [ | z l]; cbn.
  - intros [= <-] Hyx _. constructor. exact Hyx.
  - destruct (py_lt z x) as [[ | ] | ]; [ | | discriminate ].
    + destruct (insert x l); [ | discriminate ].
      intros [= <-] _ Hhd. inversion Hhd; subst. constructor. assumption.
    + intros [= <-] Hyx _. constructor. exact Hyx.
Qed.

Lemma insert_sorted (x : json) (l r : list json) :
  Sorted py_le l -> insert x l = Return r -> Sorted py_le r.
Proof.
  revert r. induction l as [ | y l IH]; intros r Hs; cbn.
  - intros [= <-]. repeat constructor.
  - destruct (py_lt y x) as [[ | ] | ] eqn:Hlt; [ | | discriminate ].
    + destruct (insert x l) as [r' | ] eqn:Hins; [ | discriminate ].
      intros [= <-]. inversion Hs; subst.
      constructor.
      * apply IH; [ assumption | reflexivity ].
      * apply (insert_hd x y l r' Hins); [ left; exact Hlt | assumption ].
    + intros [= <-]. constructor; [ exact Hs | ].
      constructor. right. exact Hlt.
Qed.

Lemma list_sort_sorted (l r : list json) :
  list_sort l = Return r -> Sorted py_le r.
Proof.
  revert r. induction l as [ | x l IH]; intros r; cbn.
  - intros [= <-]. constructor.
  - destruct (list_sort l) as [s | ]; [ | discriminate ].
    apply insert_sorted. apply IH. reflexivity.
Qed.

(** Sorting never fails on a list of strings, and gives strings. *)
Lemma insert_strings (x : string) (l : list string) :
  exists r, insert (JStr x) (map JStr l) = Return (map JStr r).
Proof.
  induction l as [ | y l [r IH]]; cbn.
  - exists [x]. reflexivity.
  - destruct (y <? x).
    + rewrite IH. exists (y :: r). reflexivity.
    + exists (x :: y :: l). reflexivity.
Qed.

Lemma list_sort_strings (l : list string) :
  exists r, list_sort (map JStr l) = Return (map JStr r).
Proof.
  induction l as [ | x l [s IH]]; cbn.
  - exists []. reflexivity.
  - rewrite IH. apply insert_strings.
Qed.

Lemma sorted_strings (l : list string) :
  Sorted py_le (map JStr l) -> StronglySorted string_le l.
Proof.
  intros H. apply Sorted_StronglySorted.
  - intros a b c. apply string_le_trans.
  - induction l as [ | x l IH]; [ constructor | ].
    cbn in H. inversion H; subst. constructor; [ apply IH; assumption | ].
    destruct l as [ | y l]; [ constructor | ].
    cbn in *. inversion H3; subst. constructor. apply py_le_strings. assumption.
Qed.

Lemma string_le_antisym (a b : string) :
  string_le a b -> string_le b a -> a = b.
Proof. apply String.leb_antisym. Qed.

Lemma map_str_of (l : list string) : map str_of (map JStr l) = l.
Proof.
  induction l as [ | x l IH]; [ reflexivity | ].
  cbn. rewrite IH. reflexivity.
Qed.

(** Two sorted lists of strings with the same entries are the same list. *)
Lemma sorted_permutation_unique (l l' : list string) :
  StronglySorted string_le l -> StronglySorted string_le l' ->
  Permutation l l' -> l = l'.
Proof.
  revert l'. induction l as [ | x t IH]; intros l' Hs Hs' Hp.
  - apply Permutation_nil in Hp. subst. reflexivity.
  - destruct l' as [ | y t'].
    + apply Permutation_sym, Permutation_nil in Hp. discriminate.
    + inversion Hs as [ | ? ? Hst Hx]; subst.
      inversion Hs' as [ | ? ? Hst' Hy]; subst.
      assert (Hxy : x = y).
      { assert (Hin : In x (y :: t')) by (eapply Permutation_in; [ exact Hp | left; reflexivity ]).
        assert (Hin' : In y (x :: t))
          by (eapply Permutation_in; [ apply Permutation_sym; exact Hp | left; reflexivity ]).
        destruct Hin as [-> | Hin]; [ reflexivity | ].
        destruct Hin' as [-> | Hin']; [ reflexivity | ].
        rewrite Forall_forall in Hx, Hy.
        apply string_le_antisym; [ apply Hx; exact Hin' | apply Hy; exact Hin ]. }
      subst y. f_equal. apply IH; try assumption.
      apply Permutation_cons_inv in Hp. exact Hp.
Qed.

(** On strings [list.sort] gives the sorted list with the same entries. *)
Lemma list_sort_strings_spec (l : list string) :
  exists r,
    list_sort (map JStr l) = Return (map JStr r)
    /\ StronglySorted string_le r
    /\ Permutation r l.
Proof.
  destruct (list_sort_strings l) as [r Hr].
  exists r. split; [ exact Hr | ]. split.
  - apply sorted_strings. eapply list_sort_sorted. exact Hr.
  - apply list_sort_permutation in Hr.
    apply (Permutation_map str_of) in Hr.
    rewrite !map_str_of in Hr. exact Hr.
Qed.

(** ** Reading a returned result back *)



Lemma py_sort_inv v files :
  py_sort v = Return files -> list_sort (elements v) = Return files.
Proof. destruct v; try discriminate. intros H; exact H. Qed.


Lemma map_JStr_injective (l l' : list string) :
  map JStr l = map JStr l' -> l = l'.
Proof.
  intros H. apply (f_equal (map str_of)) in H.
  rewrite !map_str_of in H. exact H.
Qed.

(** ** Failures of the extractor *)




(** ** The file paths of a result *)



(** ** Assembling the result *)

(** C7. On every decoded mapping of the extractor's schema, that is, one
    whose [Files] entry is missing, falsy, or a list of strings, assembling
    the result does not raise; this includes the mapping with neither
    [Files] nor [BuildInfo], for which both fields are empty. *)
Theorem assemble_returns (d : list (string * json)) :
  truthy (dict_get "Files" d) = false
  \/ (exists paths, dict_get "Files" d = JList (map JStr paths)) ->
  exists g, assemble (JDict d) = Return g.
Proof.
  intros H. unfold assemble. cbn [py_get].
  assert (Hsort : exists files,
             py_sort (py_or (dict_get "Files" d) (JList [])) = Return files).
  { destruct H as [Hf | [paths Hp]].
    - unfold py_or. rewrite Hf. exists []. reflexivity.
    - rewrite Hp. unfold py_or.
      destruct (truthy (JList (map JStr paths))).
      + destruct (list_sort_strings paths) as [r Hr].
        exists (map JStr r). exact Hr.
      + exists []. reflexivity. }
  destruct Hsort as [files ->]. eexists. reflexivity.
Qed.

Lemma assemble_returns_witness :
  (truthy (dict_get "Files" []) = false
   \/ (exists paths, dict_get "Files" [] = JList (map JStr paths)))
  /\ assemble (JDict []) = Return empty_result
  /\ (exists g, assemble (JDict []) = Return g)
  /\ exists g, assemble go_app_answer = Return g.
Proof.
  split; [ left; reflexivity | ].
  split; [ reflexivity | ].
  split.
  - apply (assemble_returns []). left. reflexivity.
  - apply (assemble_returns
             [("BuildInfo", go_app_build_info);
              ("Files", JList [JStr "/src/app/main.go"; JStr "/src/app/helper.go";
                               JStr "/go/src/runtime/proc.go"])]).
    right. exists ["/src/app/main.go"; "/src/app/helper.go";
                   "/go/src/runtime/proc.go"].
    reflexivity.
Defined.

(** ** The build info of a result *)



(** ** Executables that were not built by Go *)

(** C1, as amended. For an executable binary: when the extractor exits
    with return code 0 and its answer is a mapping whose [Files] and
    [BuildInfo] entries are missing or falsy, the call returns the empty
    result (empty build info, no file paths); when the extractor exits with
    another return code, the call raises. *)
Theorem non_go_executable_outcome (w : World) (location : string)
        (check_type : bool) (s : State) (r : ExecResult) :
  is_executable_binary w location = true ->
  goresym w ["-p"; location] (temp_dir_name (next_tmp s)) = Return r ->
  (rc r = 0%Z ->
   forall text d,
     read_text (stdo r) = Return text ->
     json_load w text = Some (JDict d) ->
     truthy (dict_get "Files" d) = false ->
     truthy (dict_get "BuildInfo" d) = false ->
     fst (collect_and_parse_symbols w location check_type s)
     = Return (Some empty_result))
  /\ (rc r <> 0%Z ->
      exists e, fst (collect_and_parse_symbols w location check_type s) = Raise e).
Proof.
  intros Hexe Hrun.
  assert (Hgate : check_type && negb (is_executable_binary w location) = false)
    by (rewrite Hexe; apply andb_false_r).
  rewrite (call_past_gate w location check_type s Hgate). cbn [fst].
  unfold try_block. rewrite Hrun. split.
  - intros Hrc text d Hread Hload Hf Hb.
    rewrite Hrc, Hread, Hload. cbn [Z.eqb negb].
    unfold assemble. cbn [py_get]. unfold py_or. rewrite Hf, Hb. reflexivity.
  - intros Hrc. apply Z.eqb_neq in Hrc. rewrite Hrc. cbn [negb].
    destruct (read_text (err r)) as [msg | e]; eexists; reflexivity.
Qed.

Lemma non_go_executable_outcome_witness :
  is_executable_binary world_empty_answer app_lin_exe = true
  /\ fst (collect_and_parse_symbols world_empty_answer app_lin_exe true
            initial_state)
     = Return (Some empty_result)
  /\ is_executable_binary world_non_go_elf arm_gentoo_elf = true
  /\ exists e,
       fst (collect_and_parse_symbols world_non_go_elf arm_gentoo_elf true
              initial_state) = Raise e.
Proof.
  split; [ reflexivity | ]. split.
  - apply (non_go_executable_outcome world_empty_answer app_lin_exe true
             initial_state {| rc := 0; stdo := "{}"; err := "" |}
             eq_refl eq_refl) with (text := "{}") (d := []);
      reflexivity.
  - split; [ reflexivity | ].
    apply (non_go_executable_outcome world_non_go_elf arm_gentoo_elf true
             initial_state {| rc := 1; stdo := ""; err := "" |}
             eq_refl eq_refl).
    discriminate.
Defined.

(** C1 as stated fails: on an ELF executable that Go did not build, the
    extractor exits with return code 1, its error stream empty, and the
    call raises, as the test suite expects. *)
Lemma non_go_executable_raises :
  is_executable_binary world_non_go_elf arm_gentoo_elf = true
  /\ goresym world_non_go_elf ["-p"; arm_gentoo_elf] (temp_dir_name 0)
     = Return {| rc := 1; stdo := ""; err := "" |}
  /\ fst (collect_and_parse_symbols world_non_go_elf arm_gentoo_elf true
            initial_state)
     = Raise (Exception "")
  /\ fst (collect_and_parse_symbols world_non_go_elf arm_gentoo_elf true
            initial_state)
     <> Return (Some empty_result).
Proof.
  split; [ reflexivity | ]. split; [ reflexivity | ].
  split; [ reflexivity | discriminate ].
Qed.

(** ** Files that are not executables *)

(** C2, as amended. On a file that is neither ELF, nor a Windows
    executable, nor Mach-O, the call with [check_type=True] returns [None]:
    it raises nothing, runs nothing and changes nothing.  With
    [check_type=False] there is no check: the outcome is what the [try]
    block makes of the extractor's answer. *)
Theorem unsupported_format_returns_none (w : World) (location : string)
        (s : State) :
  is_elf w location = false ->
  is_winexe w location = false ->
  is_macho w location = false ->
  collect_and_parse_symbols w location true s = (Return None, s)
  /\ fst (collect_and_parse_symbols w location false s)
     = try_block w location (temp_dir_name (next_tmp s)).
Proof.
  intros He Hw Hm. split.
  - apply call_gated. unfold is_executable_binary. rewrite He, Hw, Hm.
    destruct (os_path_exists w location), (os_path_isfile w location);
      reflexivity.
  - rewrite (call_past_gate w location false s eq_refl). reflexivity.
Qed.

Lemma unsupported_format_returns_none_witness :
  is_elf world_text_file readme = false
  /\ is_winexe world_text_file readme = false
  /\ is_macho world_text_file readme = false
  /\ collect_and_parse_symbols world_text_file readme true initial_state
     = (Return None, initial_state).
Proof.
  split; [ reflexivity | ]. split; [ reflexivity | ]. split; [ reflexivity | ].
  apply (unsupported_format_returns_none world_text_file readme initial_state);
    reflexivity.
Defined.

(** C2 as stated fails: a text file is turned away by returning [None], not
    by raising; and with the check off the call raises only because the
    extractor failed, with what the extractor left on its error stream. *)
Lemma unsupported_format_is_not_an_error :
  is_executable_binary world_text_file readme = false
  /\ fst (collect_and_parse_symbols world_text_file readme true initial_state)
     = Return None
  /\ (forall e,
        fst (collect_and_parse_symbols world_text_file readme true initial_state)
        <> Raise e)
  /\ fst (collect_and_parse_symbols world_text_file readme false initial_state)
     = Raise (Exception "").
Proof.
  split; [ reflexivity | ]. split; [ reflexivity | ].
  split; [ intros e; discriminate | reflexivity ].
Qed.

(** * Further properties of the plugin *)

(** ** The gate, read as a condition *)

(** [is_executable_binary] holds exactly when the path exists, is a regular
    file, and is ELF, a Windows executable or Mach-O. *)
Theorem is_executable_binary_iff (w : World) (location : string) :
  is_executable_binary w location = true
  <-> os_path_exists w location = true
      /\ os_path_isfile w location = true
      /\ (is_elf w location = true \/ is_winexe w location = true
          \/ is_macho w location = true).
Proof.
  unfold is_executable_binary.
  destruct (os_path_exists w location), (os_path_isfile w location),
    (is_elf w location), (is_winexe w location), (is_macho w location);
    cbn; intuition discriminate.
Qed.

(** On a file that passes the gate, [check_type] makes no difference: the
    outcome and the state are the same with the check on or off. *)
Theorem check_type_irrelevant_for_executables (w : World) (location : string)
        (s : State) :
  is_executable_binary w location = true ->
  collect_and_parse_symbols w location true s
  = collect_and_parse_symbols w location false s.
Proof.
  intros Hexe.
  rewrite (call_past_gate w location true s).
  - rewrite (call_past_gate w location false s eq_refl). reflexivity.
  - rewrite Hexe. reflexivity.
Qed.

Lemma check_type_irrelevant_for_executables_witness :
  is_executable_binary world_non_go_elf arm_gentoo_elf = true
  /\ collect_and_parse_symbols world_non_go_elf arm_gentoo_elf true initial_state
     = collect_and_parse_symbols world_non_go_elf arm_gentoo_elf false
         initial_state.
Proof.
  split; [ reflexivity | ].
  apply (check_type_irrelevant_for_executables world_non_go_elf arm_gentoo_elf
           initial_state).
  reflexivity.
Defined.

(** ** What a call does to the state *)

(** Whatever the file and whatever the extractor does, a call runs the
    extractor at most once, and only as [GoReSym_lin -p location]. *)
Theorem extractor_run_at_most_once (w : World) (location : string)
        (check_type : bool) (s : State) :
  let s' := snd (collect_and_parse_symbols w location check_type s) in
  calls s' = calls s
  \/ exists d,
       calls s'
       = (calls s ++ [(get_goresym_location, ["-p"; location], d)])%list.
Proof.
  cbv zeta.
  destruct (check_type && negb (is_executable_binary w location)) eqn:Hgate.
  - left. unfold collect_and_parse_symbols. rewrite Hgate. reflexivity.
  - right. rewrite (call_past_gate w location check_type s Hgate).
    eexists. reflexivity.
Qed.

Lemma concat_repeat_length (n : nat) :
  String.length (String.concat "" (repeat "x" n)) = n.
Proof.
  induction n as [ | n IH]; [ reflexivity | ].
  cbn [repeat String.concat].
  destruct n as [ | n]; [ reflexivity | ].
  cbn [repeat] in *. cbn [append String.length]. rewrite IH. reflexivity.
Qed.

Lemma temp_dir_name_length (n : nat) :
  String.length (temp_dir_name n) = (17 + n)%nat.
Proof.
  unfold temp_dir_name. cbn [append String.length].
  rewrite concat_repeat_length. reflexivity.
Qed.

Lemma temp_dir_name_injective (n m : nat) :
  temp_dir_name n = temp_dir_name m -> n = m.
Proof.
  intros H. apply (f_equal String.length) in H.
  rewrite !temp_dir_name_length in H. lia.
Qed.

Lemma remove_absent (d : string) (l : list string) :
  ~ In d l -> List.remove string_dec d l = l.
Proof. intros H. apply notin_remove. exact H. Qed.

(** When the directories that exist were all named by earlier counter
    values, a call that is turned away at the gate leaves them as they are,
    and a call that gets past the gate leaves them and one more: the
    directory [command.execute] made for the extractor's output, which
    nothing deletes.  The call's own directory is gone, no other directory
    is deleted, and the same condition holds of the state left behind. *)
Theorem temp_dirs_after_call (w : World) (location : string) (check_type : bool)
        (s : State) :
  temp_dirs_fresh s ->
  let s' := snd (collect_and_parse_symbols w location check_type s) in
  (check_type && negb (is_executable_binary w location) = true ->
   temp_dirs s' = temp_dirs s)
  /\ (check_type && negb (is_executable_binary w location) = false ->
      temp_dirs s' = temp_dir_name (S (next_tmp s)) :: temp_dirs s
      /\ ~ In (temp_dir_name (S (next_tmp s))) (temp_dirs s)
      /\ ~ In (temp_dir_name (next_tmp s)) (temp_dirs s'))
  /\ temp_dirs_fresh s'.
Proof.
  intros Hfresh. cbv zeta.
  destruct (check_type && negb (is_executable_binary w location)) eqn:Hgate.
  - unfold collect_and_parse_symbols. rewrite Hgate. cbn [snd ret].
    split; [ reflexivity | ]. split; [ discriminate | exact Hfresh ].
  - rewrite (call_past_gate w location check_type s Hgate). cbn [snd].
    assert (Hnew : forall k, (next_tmp s <= k)%nat ->
                             ~ In (temp_dir_name k) (temp_dirs s)).
    { intros k Hk Hin. destruct (Hfresh _ Hin) as (j & Hj & Heq).
      apply temp_dir_name_injective in Heq. lia. }
    assert (Hdirs : List.remove string_dec (temp_dir_name (next_tmp s))
                      (temp_dir_name (S (next_tmp s))
                       :: temp_dir_name (next_tmp s) :: temp_dirs s)
                    = temp_dir_name (S (next_tmp s)) :: temp_dirs s).
    { cbn [List.remove].
      destruct (string_dec (temp_dir_name (next_tmp s))
                           (temp_dir_name (S (next_tmp s)))) as [Heq | _].
      { apply temp_dir_name_injective in Heq. lia. }
      destruct (string_dec (temp_dir_name (next_tmp s))
                           (temp_dir_name (next_tmp s))) as [_ | Hne];
        [ | contradiction Hne; reflexivity ].
      f_equal. apply remove_absent. apply Hnew. lia. }
    unfold temp_dirs_fresh. cbn [temp_dirs next_tmp]. rewrite Hdirs.
    split; [ discriminate | ]. split.
    + intros _. split; [ reflexivity | ]. split; [ apply Hnew; lia | ].
      intros [Heq | Hin].
      * apply temp_dir_name_injective in Heq. lia.
      * revert Hin. apply Hnew. lia.
    + intros d [<- | Hin].
      * exists (S (next_tmp s)). split; [ lia | reflexivity ].
      * destruct (Hfresh d Hin) as (k & Hk & Heq).
        exists k. split; [ lia | exact Heq ].
Qed.

Lemma temp_dirs_after_call_witness :
  temp_dirs_fresh initial_state
  /\ temp_dirs (snd (collect_and_parse_symbols world_go_app app_lin_exe true
                       initial_state)) = [temp_dir_name 1]
  /\ temp_dirs (snd (collect_and_parse_symbols world_text_file readme true
                       initial_state)) = [].
Proof.
  split; [ intros d Hin; destruct Hin | ]. split.
  - apply (temp_dirs_after_call world_go_app app_lin_exe true initial_state).
    + intros d Hin; destruct Hin.
    + reflexivity.
  - apply (temp_dirs_after_call world_text_file readme true initial_state).
    + intros d Hin; destruct Hin.
    + reflexivity.
Defined.

(** ** Failures other than a nonzero return code *)

(** When running the extractor itself raises, a call that got past the gate
    raises that same exception. *)
Theorem launch_failure_propagates (w : World) (location : string)
        (check_type : bool) (s : State) (e : exn) :
  check_type && negb (is_executable_binary w location) = false ->
  goresym w ["-p"; location] (temp_dir_name (next_tmp s)) = Raise e ->
  fst (collect_and_parse_symbols w location check_type s) = Raise e.
Proof.
  intros Hgate Hrun.
  rewrite (call_past_gate w location check_type s Hgate). cbn [fst].
  unfold try_block. rewrite Hrun. reflexivity.
Qed.

Lemma launch_failure_propagates_witness :
  fst (collect_and_parse_symbols world_no_extractor app_lin_exe true initial_state)
  = Raise (OSError "Permission denied").
Proof.
  apply (launch_failure_propagates world_no_extractor app_lin_exe true
           initial_state (OSError "Permission denied"));
    reflexivity.
Defined.

(** When the extractor exits with return code 0 but its output cannot be
    decoded, the call raises instead of returning a result:
    [UnicodeDecodeError] when the output is not well-formed UTF-8, and the
    JSON decoding error when it is text but not JSON. *)
Theorem undecodable_output_raises (w : World) (location : string)
        (check_type : bool) (s : State) (r : ExecResult) :
  check_type && negb (is_executable_binary w location) = false ->
  goresym w ["-p"; location] (temp_dir_name (next_tmp s)) = Return r ->
  rc r = 0%Z ->
  (utf8_valid (stdo r) = false ->
   fst (collect_and_parse_symbols w location check_type s)
   = Raise UnicodeDecodeError)
  /\ (utf8_valid (stdo r) = true ->
      json_load w (universal_newlines (stdo r)) = None ->
      fst (collect_and_parse_symbols w location check_type s)
      = Raise JSONDecodeError).
Proof.
  intros Hgate Hrun Hrc.
  rewrite (call_past_gate w location check_type s Hgate). cbn [fst].
  unfold try_block. rewrite Hrun, Hrc. cbn [Z.eqb negb]. unfold read_text.
  split.
  - intros Hv. rewrite Hv. reflexivity.
  - intros Hv Hload. rewrite Hv, Hload. reflexivity.
Qed.

(** When the extractor's output decodes to something that is not a
    mapping (a list, a string, a number, a boolean or null), the call
    raises [AttributeError]: only a mapping has [get]. *)
Theorem non_mapping_output_raises (w : World) (location : string)
        (check_type : bool) (s : State) (r : ExecResult) (text : string)
        (symbols : json) :
  check_type && negb (is_executable_binary w location) = false ->
  goresym w ["-p"; location] (temp_dir_name (next_tmp s)) = Return r ->
  rc r = 0%Z ->
  read_text (stdo r) = Return text ->
  json_load w text = Some symbols ->
  (forall d, symbols <> JDict d) ->
  fst (collect_and_parse_symbols w location check_type s) = Raise AttributeError.
Proof.
  intros Hgate Hrun Hrc Hread Hload Hnd.
  rewrite (call_past_gate w location check_type s Hgate). cbn [fst].
  unfold try_block. rewrite Hrun, Hrc, Hread, Hload. cbn [Z.eqb negb].
  destruct symbols as [ | b | z | f | t | l | d]; try reflexivity.
  contradiction (Hnd d). reflexivity.
Qed.

Lemma undecodable_output_raises_witness :
  fst (collect_and_parse_symbols world_binary_output app_lin_exe true
         initial_state) = Raise UnicodeDecodeError
  /\ fst (collect_and_parse_symbols world_garbled_output app_lin_exe true
            initial_state) = Raise JSONDecodeError.
Proof.
  split.
  - apply (undecodable_output_raises world_binary_output app_lin_exe true
             initial_state {| rc := 0; stdo := undecodable; err := "" |});
      reflexivity.
  - apply (undecodable_output_raises world_garbled_output app_lin_exe true
             initial_state
             {| rc := 0; stdo := "panic: runtime error"; err := "" |});
      reflexivity.
Defined.

Lemma non_mapping_output_raises_witness :
  fst (collect_and_parse_symbols world_list_output app_lin_exe true
         initial_state) = Raise AttributeError.
Proof.
  apply (non_mapping_output_raises world_list_output app_lin_exe true
           initial_state {| rc := 0; stdo := "[]"; err := "" |} "[]" (JList []));
    try reflexivity.
  intros d; discriminate.
Defined.

(** ** More on sorting *)

(** The file paths do not depend on the order in which the extractor lists
    them: two answers whose [Files] are lists of the same strings in any
    order, with the same [BuildInfo], assemble to the same result. *)
Theorem assemble_order_insensitive (d d' : list (string * json))
        (l l' : list string) :
  dict_get "Files" d = JList (map JStr l) ->
  dict_get "Files" d' = JList (map JStr l') ->
  Permutation l l' ->
  dict_get "BuildInfo" d = dict_get "BuildInfo" d' ->
  assemble (JDict d) = assemble (JDict d').
Proof.
  intros Hf Hf' Hp Hb.
  assert (Hsort : list_sort (map JStr l) = list_sort (map JStr l')).
  { destruct (list_sort_strings_spec l) as (r & Hr & Hs & Hpr).
    destruct (list_sort_strings_spec l') as (r' & Hr' & Hs' & Hpr').
    rewrite Hr, Hr'. f_equal. f_equal.
    apply sorted_permutation_unique; try assumption.
    rewrite Hpr, Hp. apply Permutation_sym. exact Hpr'. }
  unfold assemble. cbn [py_get]. rewrite Hf, Hf', Hb. unfold py_or.
  destruct l as [ | x l]; destruct l' as [ | x' l'].
  - reflexivity.
  - apply Permutation_nil in Hp. discriminate.
  - apply Permutation_sym, Permutation_nil in Hp. discriminate.
  - cbn [map truthy py_sort] in *. rewrite Hsort. reflexivity.
Qed.

Lemma assemble_order_insensitive_witness :
  assemble (JDict [("Files", JList (map JStr ["b.go"; "a.go"; "c.go"]))])
  = assemble (JDict [("BuildInfo", JNull);
                     ("Files", JList (map JStr ["c.go"; "b.go"; "a.go"]))]).
Proof.
  apply (assemble_order_insensitive
           [("Files", JList (map JStr ["b.go"; "a.go"; "c.go"]))]
           [("BuildInfo", JNull);
            ("Files", JList (map JStr ["c.go"; "b.go"; "a.go"]))]
           ["b.go"; "a.go"; "c.go"] ["c.go"; "b.go"; "a.go"]);
    try reflexivity.
  apply Permutation_sym.
  apply (perm_trans (l' := ["b.go"; "c.go"; "a.go"])).
  - apply perm_swap.
  - apply perm_skip. apply perm_swap.
Defined.

(** Sorting is idempotent on the result: file paths that are already in
    byte-wise order come back as they are, so feeding a result's file paths
    through the assembly again changes nothing. *)
Theorem sorted_files_unchanged (d : list (string * json)) (l : list string) :
  dict_get "Files" d = JList (map JStr l) ->
  StronglySorted string_le l ->
  exists g, assemble (JDict d) = Return g /\ file_paths g = map JStr l.
Proof.
  intros Hf Hs.
  destruct (list_sort_strings_spec l) as (r & Hr & Hsr & Hpr).
  assert (r = l) by (apply sorted_permutation_unique; assumption). subst r.
  unfold assemble. cbn [py_get]. rewrite Hf. unfold py_or.
  destruct l as [ | x l].
  - eexists. split; reflexivity.
  - cbn [map truthy py_sort] in *. rewrite Hr.
    eexists. split; reflexivity.
Qed.

Lemma sorted_files_unchanged_witness :
  exists g,
    assemble (JDict [("Files", JList (map JStr ["a.go"; "a.go"; "b.go"]))])
    = Return g
    /\ file_paths g = map JStr ["a.go"; "a.go"; "b.go"].
Proof.
  apply (sorted_files_unchanged
           [("Files", JList (map JStr ["a.go"; "a.go"; "b.go"]))]
           ["a.go"; "a.go"; "b.go"]).
  - reflexivity.
  - repeat constructor.
Defined.

(** A [Files] list of two or more entries one of which is null cannot be
    ordered: sorting it raises [TypeError]. *)
Lemma py_lt_null_left (x : json) : py_lt JNull x = None.
Proof. reflexivity. Qed.

Lemma py_lt_null_right (x : json) : py_lt x JNull = None.
Proof. destruct x; reflexivity. Qed.

Lemma insert_raises_type_error (x : json) (l : list json) (e : exn) :
  insert x l = Raise e -> e = TypeError.
Proof.
  induction l as [ | y l IH]; cbn; [ discriminate | ].
  destruct (py_lt y x) as [[ | ] | ].
  - destruct (insert x l) as [r | e']; [ discriminate | ].
    intros [= <-]. apply IH. reflexivity.
  - discriminate.
  - intros [= <-]. reflexivity.
Qed.

Lemma list_sort_raises_type_error (l : list json) (e : exn) :
  list_sort l = Raise e -> e = TypeError.
Proof.
  induction l as [ | x l IH]; cbn; [ discriminate | ].
  destruct (list_sort l) as [s | e'].
  - apply insert_raises_type_error.
  - intros [= <-]. apply IH. reflexivity.
Qed.

Lemma list_sort_null (l : list json) :
  In JNull l -> (2 <= List.length l)%nat -> list_sort l = Raise TypeError.
Proof.
  induction l as [ | x l IH]; intros Hin Hlen; [ destruct Hin | ].
  cbn [list_sort].
  destruct (list_sort l) as [s | e] eqn:Hs.
  - destruct l as [ | z l]; [ cbn in Hlen; lia | ].
    destruct l as [ | z' l].
    + (* one entry after [x] *)
      cbn in Hs. injection Hs as <-. cbn.
      destruct Hin as [-> | [-> | []]].
      * rewrite py_lt_null_right. reflexivity.
      * reflexivity.
    + destruct Hin as [-> | Hin].
      * apply list_sort_permutation in Hs.
        destruct s as [ | y s].
        { apply Permutation_nil in Hs. discriminate Hs. }
        cbn. rewrite py_lt_null_right. reflexivity.
      * assert (Hc : Return s = @Raise (list json) TypeError)
          by (apply IH; [ exact Hin | cbn; lia ]).
        discriminate Hc.
  - f_equal. eapply list_sort_raises_type_error. exact Hs.
Qed.

Theorem null_file_entry_raises (d : list (string * json)) (l : list json) :
  dict_get "Files" d = JList l ->
  In JNull l ->
  (2 <= List.length l)%nat ->
  assemble (JDict d) = Raise TypeError.
Proof.
  intros Hf Hin Hlen.
  unfold assemble. cbn [py_get]. rewrite Hf. unfold py_or.
  destruct l as [ | x l]; [ destruct Hin | ].
  cbn [truthy py_sort]. rewrite (list_sort_null _ Hin Hlen). reflexivity.
Qed.

Lemma null_file_entry_raises_witness :
  assemble (JDict [("Files", JList [JStr "a.go"; JNull; JStr "b.go"])])
  = Raise TypeError.
Proof.
  apply (null_file_entry_raises
           [("Files", JList [JStr "a.go"; JNull; JStr "b.go"])]
           [JStr "a.go"; JNull; JStr "b.go"]).
  - reflexivity.
  - right; left; reflexivity.
  - cbn; lia.
Defined.

(** ** A well-formed answer *)

(** When a call gets past the gate, the extractor exits with return code 0
    and its answer is a mapping whose [Files] entry is a list of strings,
    the call returns a result: its file paths are those strings in
    byte-wise order, each as often as listed, and its build info is the
    [BuildInfo] entry or the empty mapping. *)
Theorem well_formed_answer_returns (w : World) (location : string)
        (check_type : bool) (s : State) (r : ExecResult) (text : string)
        (d : list (string * json)) (l : list string) :
  check_type && negb (is_executable_binary w location) = false ->
  goresym w ["-p"; location] (temp_dir_name (next_tmp s)) = Return r ->
  rc r = 0%Z ->
  read_text (stdo r) = Return text ->
  json_load w text = Some (JDict d) ->
  dict_get "Files" d = JList (map JStr l) ->
  exists paths,
    fst (collect_and_parse_symbols w location check_type s)
    = Return (Some {| build_info := py_or (dict_get "BuildInfo" d) (JDict []);
                      file_paths := map JStr paths |})
    /\ StronglySorted string_le paths
    /\ Permutation paths l.
Proof.
  intros Hgate Hrun Hrc Hread Hload Hf.
  destruct (list_sort_strings_spec l) as (paths & Hsort & Hs & Hp).
  exists paths. split; [ | split; assumption ].
  rewrite (call_past_gate w location check_type s Hgate). cbn [fst].
  unfold try_block. rewrite Hrun, Hrc, Hread, Hload. cbn [Z.eqb negb].
  unfold assemble. cbn [py_get]. rewrite Hf. unfold py_or at 1.
  destruct l as [ | x l].
  - cbn in Hsort. injection Hsort as <-. reflexivity.
  - cbn [map truthy py_sort] in *. rewrite Hsort. reflexivity.
Qed.

Lemma well_formed_answer_returns_witness :
  exists paths,
    fst (collect_and_parse_symbols world_go_app app_lin_exe true initial_state)
    = Return (Some {| build_info := go_app_build_info;
                      file_paths := map JStr paths |})
    /\ StronglySorted string_le paths
    /\ Permutation paths ["/src/app/main.go"; "/src/app/helper.go";
                          "/go/src/runtime/proc.go"].
Proof.
  apply (well_formed_answer_returns world_go_app app_lin_exe true
           initial_state
           {| rc := 0; stdo := go_app_stdout; err := "" |}
           go_app_stdout
           [("BuildInfo", go_app_build_info);
            ("Files", JList [JStr "/src/app/main.go"; JStr "/src/app/helper.go";
                             JStr "/go/src/runtime/proc.go"])]
           ["/src/app/main.go"; "/src/app/helper.go";
            "/go/src/runtime/proc.go"]);
    reflexivity.
Defined.

(** ** Mach-O detection *)

Lemma lower_append (a b : string) : lower (a ++ b) = lower a ++ lower b.
Proof.
  induction a as [ | c a IH]; [ reflexivity | ].
  cbn. rewrite IH. reflexivity.
Qed.

Lemma prefix_append (p t : string) : String.prefix p (p ++ t) = true.
Proof.
  induction p as [ | c p IH]; cbn.
  - destruct t; reflexivity.
  - destruct (ascii_dec c c) as [_ | Hne]; [ exact IH | contradiction Hne; reflexivity ].
Qed.

(** Mach-O detection ignores letter case: a file whose type description
    begins with [mach-o], or whose MIME type begins with
    [application/x-mach-binary], in any capitalisation, is Mach-O. *)
Theorem is_macho_ignores_case (w : World) (location p t : string) :
  (filetype_file w location = p ++ t /\ lower p = "mach-o")
  \/ (mimetype_file w location = p ++ t
      /\ lower p = "application/x-mach-binary") ->
  is_macho w location = true.
Proof.
  unfold is_macho, startswith.
  intros [[Hf Hp] | [Hm Hp]].
  - rewrite Hf, lower_append, Hp, prefix_append. reflexivity.
  - rewrite Hm, lower_append, Hp, prefix_append. apply orb_true_r.
Qed.

Lemma is_macho_ignores_case_witness :
  is_macho world_macho app_mac_exe = true
  /\ is_executable_binary world_macho app_mac_exe = true.
Proof.
  split; [ | reflexivity ].
  apply (is_macho_ignores_case world_macho app_mac_exe "Mach-O"
           " 64-bit x86_64 executable").
  left. split; reflexivity.
Defined.

(** ** A [Files] entry that is not a list *)

(** When the [Files] entry is truthy but not a list (a string, a number,
    [true] or a mapping), assembling raises [AttributeError], whatever the
    rest of the answer holds. *)
Theorem non_list_files_raises (d : list (string * json)) :
  truthy (dict_get "Files" d) = true ->
  (forall l, dict_get "Files" d <> JList l) ->
  assemble (JDict d) = Raise AttributeError.
Proof.
  intros Ht Hnl. unfold assemble. cbn [py_get]. unfold py_or. rewrite Ht.
  destruct (dict_get "Files" d) as [ | b | z | f | t | l | e]; try reflexivity.
  contradiction (Hnl l). reflexivity.
Qed.

Lemma non_list_files_raises_witness :
  assemble (JDict [("BuildInfo", go_app_build_info);
                   ("Files", JDict [("main.go", JInt 1)])])
  = Raise AttributeError.
Proof.
  apply (non_list_files_raises
           [("BuildInfo", go_app_build_info);
            ("Files", JDict [("main.go", JInt 1)])]).
  - reflexivity.
  - intros l. discriminate.
Defined.
